(** * Storage plugin registry of DLite (src/dlite-storage-plugins.c)

    A shallow embedding of the storage-plugin registry: the lazily
    created global [storage_plugin_info], the cached SHA-256 hash of
    the plugin search paths [storage_plugin_path_hash], and the public
    operations built on top of them.  The generic plugin substrate
    (utils/plugin.c, utils/fileutils.c, pathshash.c) is not part of the
    translated sources; the pieces of it the operations call are
    modelled from the specification and marked as such. *)

From Stdlib Require Import String Ascii List ZArith Lia Bool.
Import ListNotations.

Local Open Scope Z_scope.

(** ** Data model *)

(** A storage plugin API (the [DLiteStoragePlugin] table returned by
    the well-known entry symbol).  It reports its own driver name; the
    identifier distinguishes different tables reporting the same name. *)
Record descriptor := mkDescriptor {
  d_name : string;
  d_id : nat
}.

(** A file found in a plugin directory.  [pf_probe] is the descriptor
    obtained by opening it and calling the entry symbol, or [None] when
    the file fails to open, lacks the symbol, or the probe fails. *)
Record plugin_file := mkPluginFile {
  pf_file : string;
  pf_probe : option descriptor
}.

(** [PluginInfo]: the search paths ([info->paths]) and the mapping of
    registered plugins, in registration order. *)
Record PluginInfo := mkPluginInfo {
  pi_paths : list string;
  pi_plugins : list (string * descriptor)
}.

(** What the process sees of its environment: whether
    [plugin_info_create] can allocate, the [DLITE_STORAGE_PLUGIN_DIRS]
    environment variable (already split), [dlite_use_build_root()],
    the build-tree default [dlite_STORAGE_PLUGINS], [dlite_root_get()],
    the installed relative directories [DLITE_STORAGE_PLUGIN_DIRS], and
    the shared libraries present in each directory. *)
Record env := mkEnv {
  env_alloc_ok : bool;
  env_plugin_dirs : list string;
  env_use_build_root : bool;
  env_build_dirs : list string;
  env_root : string;
  env_prefix_dirs : list string;
  env_fs : string -> list plugin_file
}.

(** Observable calls into the substrate and the C runtime; a rescan is
    an [EvLoadAll] event. *)
Inductive event :=
| EvAtexit                (* atexit(storage_plugin_info_free) *)
| EvAddDllPath            (* dlite_add_dll_path() *)
| EvGetApi (name : string) (* plugin_get_api(info, name) *)
| EvPathsHash             (* pathshash(hash, 32, &info->paths) *)
| EvLoadAll               (* plugin_load_all(info) *)
| EvUnload (name : string). (* plugin_unload(info, name) *)

Definition event_eqb (a b : event) : bool :=
  match a, b with
  | EvAtexit, EvAtexit | EvAddDllPath, EvAddDllPath
  | EvPathsHash, EvPathsHash | EvLoadAll, EvLoadAll => true
  | EvGetApi x, EvGetApi y | EvUnload x, EvUnload y => String.eqb x y
  | _, _ => false
  end.

(** The process: its environment, the two file-level globals
    [storage_plugin_info] and [storage_plugin_path_hash] (32 bytes, read
    as one 256-bit number, zero-initialised as a static), and the log of
    substrate calls. *)
Record world := mkWorld {
  w_env : env;
  w_info : option PluginInfo;
  w_hash : Z;
  w_log : list event
}.

Definition init_world (e : env) : world := mkWorld e None 0 [].

Definition set_info (w : world) (i : PluginInfo) : world :=
  mkWorld (w_env w) (Some i) (w_hash w) (w_log w).
Definition set_hash (w : world) (h : Z) : world :=
  mkWorld (w_env w) (w_info w) h (w_log w).
Definition emit (w : world) (e : event) : world :=
  mkWorld (w_env w) (w_info w) (w_hash w) (w_log w ++ [e]).

(** ** A state monad over the process *)

Definition M (A : Type) := world -> world * A.

Definition ret {A} (a : A) : M A := fun w => (w, a).
Definition bind {A B} (m : M A) (k : A -> M B) : M B :=
  fun w => let (w', a) := m w in k a w'.

Notation "x <- m ;; k" := (bind m (fun x => k))
  (at level 61, m at next level, right associativity).

Definition get_world : M world := fun w => (w, w).
Definition log_event (e : event) : M unit := fun w => (emit w e, tt).
Definition put_info (i : PluginInfo) : M unit := fun w => (set_info w i, tt).
Definition put_hash (h : Z) : M unit := fun w => (set_hash w h, tt).

(** ** The plugin substrate *)

Fixpoint lookup (name : string) (ps : list (string * descriptor))
  : option descriptor :=
  match ps with
  | [] => None
  | (n, d) :: ps' => if String.eqb n name then Some d else lookup name ps'
  end.

(** Modelled from the spec: [plugin_get_api] (utils/plugin.c) returns
    the descriptor registered under [name], without any I/O. *)
Definition plugin_get_api (name : string) : M (option descriptor) :=
  _ <- log_event (EvGetApi name) ;;
  w <- get_world ;;
  ret (match w_info w with
       | Some i => lookup name (pi_plugins i)
       | None => None
       end).

(** Modelled from the spec: registering [(reported-name, descriptor)]
    overwrites a prior entry under that name, else appends. *)
Definition register (d : descriptor) (ps : list (string * descriptor))
  : list (string * descriptor) :=
  if existsb (fun '(n, _) => String.eqb n (d_name d)) ps
  then map (fun '(n, x) => if String.eqb n (d_name d) then (n, d) else (n, x)) ps
  else ps ++ [(d_name d, d)].

(** Modelled from the spec: files of one directory, in order; a file
    whose probe fails is skipped. *)
Fixpoint load_files (fs : list plugin_file) (ps : list (string * descriptor))
  : list (string * descriptor) :=
  match fs with
  | [] => ps
  | f :: fs' =>
      load_files fs' (match pf_probe f with
                      | Some d => register d ps
                      | None => ps
                      end)
  end.

(** Modelled from the spec: the directories of the search path, in order. *)
Fixpoint load_dirs (fsys : string -> list plugin_file) (dirs : list string)
         (ps : list (string * descriptor)) : list (string * descriptor) :=
  match dirs with
  | [] => ps
  | d :: ds => load_dirs fsys ds (load_files (fsys d) ps)
  end.

(** Modelled from the spec: [plugin_load_all] (utils/plugin.c), the
    full rescan of every directory of the search path. *)
Definition plugin_load_all : M unit :=
  _ <- log_event EvLoadAll ;;
  w <- get_world ;;
  match w_info w with
  | Some i =>
      put_info (mkPluginInfo (pi_paths i)
                  (load_dirs (env_fs (w_env w)) (pi_paths i) (pi_plugins i)))
  | None => ret tt
  end.

(** Modelled from the spec: [plugin_unload] removes the entry and
    returns 0, or returns non-zero when no such entry exists. *)
Definition plugin_unload (name : string) : M Z :=
  _ <- log_event (EvUnload name) ;;
  w <- get_world ;;
  match w_info w with
  | Some i =>
      match lookup name (pi_plugins i) with
      | Some _ =>
          _ <- put_info (mkPluginInfo (pi_paths i)
                   (filter (fun '(n, _) => negb (String.eqb n name)) (pi_plugins i))) ;;
          ret 0
      | None => ret 1
      end
  | None => ret 1
  end.

(** Modelled from the spec: [plugin_names] lists every registered name. *)
Definition plugin_names : M (list string) :=
  w <- get_world ;;
  ret (match w_info w with
       | Some i => map fst (pi_plugins i)
       | None => []
       end).

(** Modelled from the spec: index normalisation of [fu_paths_insert]:
    a negative [n] denotes position [len + n + 1], and the result is
    clipped to [0 .. len]. *)
Definition clip_index (len : nat) (n : Z) : nat :=
  let k := if n <? 0 then Z.of_nat len + n + 1 else n in
  Z.to_nat (Z.max 0 (Z.min k (Z.of_nat len))).

Definition insert_at {A} (k : nat) (x : A) (l : list A) : list A :=
  firstn k l ++ x :: skipn k l.

(** Modelled from the spec: [plugin_path_insert] inserts at the
    normalised index and returns it. *)
Definition plugin_path_insert (path : string) (n : Z) : M Z :=
  w <- get_world ;;
  match w_info w with
  | Some i =>
      let k := clip_index (length (pi_paths i)) n in
      _ <- put_info (mkPluginInfo (insert_at k path (pi_paths i)) (pi_plugins i)) ;;
      ret (Z.of_nat k)
  | None => ret (-1)
  end.

(** Modelled from the spec: [plugin_path_append] inserts at the end and
    returns the new index. *)
Definition plugin_path_append (path : string) : M Z :=
  w <- get_world ;;
  match w_info w with
  | Some i =>
      _ <- put_info (mkPluginInfo (pi_paths i ++ [path]) (pi_plugins i)) ;;
      ret (Z.of_nat (length (pi_paths i)))
  | None => ret (-1)
  end.

(** Modelled from the spec: [plugin_path_appendn] appends the first [n]
    bytes of [path]. *)
Definition plugin_path_appendn (path : string) (n : nat) : M Z :=
  plugin_path_append (String.substring 0 n path).



(** Modelled from the spec: [plugin_info_create] seeds the search path
    from the environment variable; [plugin_path_extend] and
    [plugin_path_extend_prefix] add the mode-dependent defaults. *)
Definition plugin_info_create (e : env) : PluginInfo :=
  mkPluginInfo (env_plugin_dirs e) [].

Definition plugin_path_extend (i : PluginInfo) (dirs : list string) : PluginInfo :=
  mkPluginInfo (pi_paths i ++ dirs) (pi_plugins i).

Definition plugin_path_extend_prefix (i : PluginInfo) (root : string)
           (dirs : list string) : PluginInfo :=
  mkPluginInfo (pi_paths i ++ map (fun d => (root ++ "/" ++ d)%string) dirs)
               (pi_plugins i).

(** ** The error message of [dlite_storage_plugin_get] *)

Definition dq : string := String (ascii_of_nat 34) EmptyString.
Definition nl : string := String (ascii_of_nat 10) EmptyString.

(** [submsg] of the source. *)
Definition submsg (build_root : bool) : string :=
  if build_root then EmptyString else "DLITE_ROOT or ".

Definition msg_header (name : string) : string :=
  ("cannot find storage plugin for driver " ++ dq ++ name ++ dq
   ++ " in search path:" ++ nl)%string.

Definition msg_line (p : string) : string := ("    " ++ p ++ nl)%string.

Definition msg_hint (build_root : bool) : string :=
  ("Is the " ++ submsg build_root ++
   "DLITE_STORAGE_PLUGIN_DIRS enveronment variable(s) set?")%string.

(** The loop [while ((p = *(paths++)) && ++n)] appends one line per
    path and leaves [n] equal to the number of paths; the hint follows
    when [n <= 1]. *)
Fixpoint msg_paths (paths : list string) (n : nat) : string * nat :=
  match paths with
  | [] => (EmptyString, n)
  | p :: ps => let (s, n') := msg_paths ps (S n) in ((msg_line p ++ s)%string, n')
  end.

Definition not_found_msg (name : string) (paths : list string)
           (build_root : bool) : string :=
  let (lines, n) := msg_paths paths 0 in
  (msg_header name ++ lines ++ (if Nat.leb n 1 then msg_hint build_root else EmptyString))%string.

(** Result of [dlite_storage_plugin_get]: a plugin, [NULL], the
    process exiting through [errx(1, "%s", buf)], or a crash on a NULL
    path array. *)
Inductive get_result :=
| GetFound (d : descriptor)
| GetNull
| GetExit (msg : string)
| GetCrash.

Section Registry.

(** Modelled from the spec: [pathshash] (pathshash.c) computes the
    32-byte digest of the search paths deterministically from their
    ordered contents, and returns non-zero when it fails. *)
Variable pathshash : list string -> option Z.

(** [get_storage_plugin_info()] *)
Definition get_storage_plugin_info : M (option PluginInfo) :=
  w <- get_world ;;
  match w_info w with
  | Some i => ret (Some i)
  | None =>
      let e := w_env w in
      if env_alloc_ok e then
        let i0 := plugin_info_create e in
        _ <- log_event EvAtexit ;;
        let i1 := if env_use_build_root e
                  then plugin_path_extend i0 (env_build_dirs e)
                  else plugin_path_extend_prefix i0 (env_root e) (env_prefix_dirs e) in
        _ <- put_info i1 ;;
        _ <- log_event EvAddDllPath ;;
        ret (Some i1)
      else ret None
  end.

(** [dlite_storage_plugin_paths()] *)
Definition dlite_storage_plugin_paths : M (option (list string)) :=
  oi <- get_storage_plugin_info ;;
  match oi with
  | None => ret None
  | Some i => ret (Some (pi_paths i))
  end.

(** The [pathshash(hash, sizeof(hash), &info->paths) == 0] call,
    reading the current paths of the registry. *)
Definition call_pathshash : M (option Z) :=
  _ <- log_event EvPathsHash ;;
  w <- get_world ;;
  ret (match w_info w with
       | Some i => pathshash (pi_paths i)
       | None => None
       end).

(** [dlite_storage_plugin_get(name)] *)
Definition dlite_storage_plugin_get (name : string) : M get_result :=
  oi <- get_storage_plugin_info ;;
  match oi with
  | None => ret GetNull
  | Some _ =>
      api <- plugin_get_api name ;;
      match api with
      | Some d => ret (GetFound d)
      | None =>
          w <- get_world ;;
          found <-
            (match w_info w with
             | Some _ =>
                 oh <- call_pathshash ;;
                 match oh with
                 | Some hash =>
                     if negb (Z.eqb (w_hash w) hash) then
                       _ <- plugin_load_all ;;
                       _ <- put_hash hash ;;
                       plugin_get_api name
                     else ret None
                 | None => ret None
                 end
             | None => ret None
             end) ;;
          match found with
          | Some d => ret (GetFound d)
          | None =>
              op <- dlite_storage_plugin_paths ;;
              w' <- get_world ;;
              match op with
              | Some paths =>
                  ret (GetExit (not_found_msg name paths
                                  (env_use_build_root (w_env w'))))
              | None => ret GetCrash
              end
          end
      end
  end.

(** [dlite_storage_plugin_load_all()] *)
Definition dlite_storage_plugin_load_all : M Z :=
  oi <- get_storage_plugin_info ;;
  match oi with
  | None => ret 1
  | Some _ => _ <- plugin_load_all ;; ret 0
  end.

Fixpoint unload_names (names : list string) : M unit :=
  match names with
  | [] => ret tt
  | n :: ns => _ <- plugin_unload n ;; unload_names ns
  end.

(** [dlite_storage_plugin_unload_all()] *)
Definition dlite_storage_plugin_unload_all : M unit :=
  oi <- get_storage_plugin_info ;;
  match oi with
  | None => ret tt
  | Some _ => names <- plugin_names ;; unload_names names
  end.

(** [dlite_storage_plugin_unload(name)] *)
Definition dlite_storage_plugin_unload (name : string) : M Z :=
  oi <- get_storage_plugin_info ;;
  match oi with
  | None => ret 1
  | Some _ => plugin_unload name
  end.

(** [dlite_storage_plugin_path_insert(n, path)] *)
Definition dlite_storage_plugin_path_insert (n : Z) (path : string) : M Z :=
  oi <- get_storage_plugin_info ;;
  match oi with
  | None => ret 1
  | Some _ => plugin_path_insert path n
  end.

(** [dlite_storage_plugin_path_append(path)] *)
Definition dlite_storage_plugin_path_append (path : string) : M Z :=
  oi <- get_storage_plugin_info ;;
  match oi with
  | None => ret 1
  | Some _ => plugin_path_append path
  end.

(** [dlite_storage_plugin_path_appendn(path, n)] *)
Definition dlite_storage_plugin_path_appendn (path : string) (n : nat) : M Z :=
  oi <- get_storage_plugin_info ;;
  match oi with
  | None => ret 1
  | Some _ => plugin_path_appendn path n
  end.

(** [storage_plugin_info_free()]: the [atexit] teardown.  It frees the
    registry and resets the global pointer; [storage_plugin_path_hash]
    is left as it is. *)
Definition storage_plugin_info_free : M unit :=
  fun w => (mkWorld (w_env w) None (w_hash w) (w_log w), tt).


End Registry.

(** ** Concrete worlds used to evaluate the operations *)

(** A stand-in digest: it depends on the number of paths only, and is
    never the zero initial value. *)
Definition demo_hash (ps : list string) : option Z := Some (Z.of_nat (length ps) + 1).

Definition hdf5_api : descriptor := mkDescriptor "hdf5"%string 1.
Definition json_api : descriptor := mkDescriptor "json"%string 2.

Definition demo_fs (dir : string) : list plugin_file :=
  if String.eqb dir "/plugins"%string then
    [mkPluginFile "hdf5.so"%string (Some hdf5_api);
     mkPluginFile "broken.so"%string None;
     mkPluginFile "json.so"%string (Some json_api)]
  else [].

Definition demo_env (dirs : list string) : env :=
  mkEnv true dirs true [] "/usr"%string ["lib/plugins"%string] demo_fs.

(** The registry [get_storage_plugin_info] builds on its first call:
    the environment variable's directories, then the defaults of the
    active mode. *)
Definition default_info (e : env) : PluginInfo :=
  if env_use_build_root e
  then plugin_path_extend (plugin_info_create e) (env_build_dirs e)
  else plugin_path_extend_prefix (plugin_info_create e) (env_root e) (env_prefix_dirs e).

(** The registry after one rescan of its search paths. *)
Definition rescanned (fsys : string -> list plugin_file) (i : PluginInfo) : PluginInfo :=
  mkPluginInfo (pi_paths i) (load_dirs fsys (pi_paths i) (pi_plugins i)).

(** Number of rescans in a log. *)
Definition rescans (l : list event) : nat :=
  length (filter (event_eqb EvLoadAll) l).

(** Concatenation of the path lines of the message. *)
Definition msg_lines (paths : list string) : string :=
  fold_right (fun p acc => (msg_line p ++ acc)%string) EmptyString paths.

(** Substring test on messages. *)
Fixpoint str_contains (pat s : string) : bool :=
  String.prefix pat s ||
  match s with
  | EmptyString => false
  | String _ s' => str_contains pat s'
  end.

(** The directories' files with the ones whose probe fails left out. *)
Definition skip_failed (fsys : string -> list plugin_file) (dir : string)
  : list plugin_file :=
  filter (fun f => match pf_probe f with Some _ => true | None => false end) (fsys dir).

(** The outcome of [dlite_storage_plugin_get] in the steps of its
    resolution order, relative to the registry [i] and the process [w0]
    obtained from [get_storage_plugin_info]. *)
Definition resolution_steps (pathshash : list string -> option Z) (name : string)
  (w0 : world) (i : PluginInfo) (res : world * get_result) : Prop :=
  let (w', r) := res in
  let msg := GetExit (not_found_msg name (pi_paths i) (env_use_build_root (w_env w0))) in
  match lookup name (pi_plugins i) with
  | Some d => r = GetFound d /\ w' = emit w0 (EvGetApi name)
  | None =>
      match pathshash (pi_paths i) with
      | Some h =>
          if negb (Z.eqb (w_hash w0) h) then
            let i' := rescanned (env_fs (w_env w0)) i in
            w_log w' = w_log w0 ++ [EvGetApi name; EvPathsHash; EvLoadAll; EvGetApi name] /\
            w_hash w' = h /\ w_info w' = Some i' /\
            r = match lookup name (pi_plugins i') with
                | Some d => GetFound d
                | None => msg
                end
          else
            w_log w' = w_log w0 ++ [EvGetApi name; EvPathsHash] /\
            w_hash w' = w_hash w0 /\ w_info w' = Some i /\ r = msg
      | None =>
          w_log w' = w_log w0 ++ [EvGetApi name; EvPathsHash] /\
          w_hash w' = w_hash w0 /\ w_info w' = Some i /\ r = msg
      end
  end.

(** Number of [atexit] registrations in a log. *)
Definition atexits (l : list event) : nat :=
  length (filter (event_eqb EvAtexit) l).

(** ** Proofs *)

Ltac unfold_monad :=
  unfold bind, ret, get_world, log_event, put_info, put_hash, emit,
    set_info, set_hash in *.

Lemma get_storage_plugin_info_some (w : world) (i : PluginInfo) :
  w_info w = Some i -> get_storage_plugin_info w = (w, Some i).
Proof.
  intros H. unfold get_storage_plugin_info; unfold_monad. now rewrite H.
Qed.

Lemma get_storage_plugin_info_ok (w w0 : world) (i : PluginInfo) :
  get_storage_plugin_info w = (w0, Some i) ->
  w_info w0 = Some i /\ w_hash w0 = w_hash w /\ w_env w0 = w_env w /\
  (w_log w0 = w_log w \/ w_log w0 = w_log w ++ [EvAtexit; EvAddDllPath]).
Proof.
  destruct w as [e inf h l]. unfold get_storage_plugin_info; unfold_monad; cbn.
  destruct inf as [i0|].
  - intros E; inversion E; subst; cbn; auto.
  - destruct (env_alloc_ok e); [|discriminate].
    intros E; inversion E; subst; cbn.
    rewrite <- app_assoc. auto.
Qed.

Lemma get_storage_plugin_info_none (w w0 : world) :
  get_storage_plugin_info w = (w0, None) -> w0 = w.
Proof.
  destruct w as [e inf h l]. unfold get_storage_plugin_info; unfold_monad; cbn.
  destruct inf; [discriminate|]. destruct (env_alloc_ok e); [discriminate|].
  now intros E; inversion E.
Qed.

Lemma get_storage_plugin_info_null_iff (w : world) :
  snd (get_storage_plugin_info w) = None <->
  w_info w = None /\ env_alloc_ok (w_env w) = false.
Proof.
  destruct w as [e inf h l]; cbn.
  unfold get_storage_plugin_info; unfold_monad; cbn.
  destruct inf as [i|]; cbn.
  - split; [discriminate|]. intros [? _]; discriminate.
  - destruct (env_alloc_ok e); cbn; split; try discriminate; auto.
    intros [_ ?]; discriminate.
Qed.

(** C7: [get_storage_plugin_info] is lazy and idempotent.  Once the
    registry exists, a call returns it and changes nothing.  The first
    successful call builds the registry from the environment variable
    and the mode-dependent defaults and registers the [atexit] teardown
    hook once.  The call yields [NULL] exactly when no registry exists
    yet and the allocation fails. *)
Theorem get_storage_plugin_info_lazy_idempotent (w : world) :
  (forall i, w_info w = Some i -> get_storage_plugin_info w = (w, Some i)) /\
  (w_info w = None -> env_alloc_ok (w_env w) = true ->
   get_storage_plugin_info w =
     (mkWorld (w_env w) (Some (default_info (w_env w))) (w_hash w)
              (w_log w ++ [EvAtexit; EvAddDllPath]),
      Some (default_info (w_env w))) /\
   get_storage_plugin_info
     (mkWorld (w_env w) (Some (default_info (w_env w))) (w_hash w)
              (w_log w ++ [EvAtexit; EvAddDllPath])) =
     (mkWorld (w_env w) (Some (default_info (w_env w))) (w_hash w)
              (w_log w ++ [EvAtexit; EvAddDllPath]),
      Some (default_info (w_env w)))) /\
  (snd (get_storage_plugin_info w) = None <->
   w_info w = None /\ env_alloc_ok (w_env w) = false).
Proof.
  split; [apply get_storage_plugin_info_some|].
  split; [|apply get_storage_plugin_info_null_iff].
  destruct w as [e inf h l]; cbn.
  unfold get_storage_plugin_info; unfold_monad; cbn.
  intros -> ->. cbn. rewrite <- app_assoc. unfold default_info. split; reflexivity.
Qed.

Lemma dlite_storage_plugin_get_steps
  (pathshash : list string -> option Z) (name : string)
  (w w0 : world) (i : PluginInfo) :
  get_storage_plugin_info w = (w0, Some i) ->
  resolution_steps pathshash name w0 i (dlite_storage_plugin_get pathshash name w).
Proof.
  intros H. unfold resolution_steps.
  destruct (get_storage_plugin_info_ok _ _ _ H) as [Hi _].
  destruct w0 as [e0 inf0 h0 l0]; cbn in Hi; subst inf0.
  unfold dlite_storage_plugin_get, bind at 1. rewrite H.
  unfold plugin_get_api, call_pathshash,
    plugin_load_all, dlite_storage_plugin_paths, get_storage_plugin_info.
  unfold_monad. cbn.
  destruct (lookup name (pi_plugins i)) as [d|] eqn:El; cbn; [auto|].
  destruct (pathshash (pi_paths i)) as [hh|] eqn:Eh; cbn.
  - destruct (Z.eqb h0 hh) eqn:Ez; cbn.
    + rewrite <- !app_assoc. cbn. repeat split.
    + rewrite <- !app_assoc. cbn. unfold rescanned; cbn.
      destruct (lookup name (load_dirs (env_fs e0) (pi_paths i) (pi_plugins i)));
        cbn; repeat split.
  - rewrite <- !app_assoc. cbn. repeat split.
Qed.

Lemma dlite_storage_plugin_get_env
  (pathshash : list string -> option Z) (name : string)
  (w w0 : world) (i : PluginInfo) :
  get_storage_plugin_info w = (w0, Some i) ->
  w_env (fst (dlite_storage_plugin_get pathshash name w)) = w_env w0.
Proof.
  intros H.
  destruct (get_storage_plugin_info_ok _ _ _ H) as [Hi _].
  destruct w0 as [e0 inf0 h0 l0]; cbn in Hi; subst inf0.
  unfold dlite_storage_plugin_get, bind at 1. rewrite H.
  unfold plugin_get_api, call_pathshash,
    plugin_load_all, dlite_storage_plugin_paths, get_storage_plugin_info.
  unfold_monad. cbn.
  destruct (lookup name (pi_plugins i)); cbn; [reflexivity|].
  destruct (pathshash (pi_paths i)) as [hh|]; cbn; [|reflexivity].
  destruct (Z.eqb h0 hh); cbn; [reflexivity|].
  destruct (lookup name (load_dirs (env_fs e0) (pi_paths i) (pi_plugins i)));
    reflexivity.
Qed.

Lemma dlite_storage_plugin_get_null (pathshash : list string -> option Z)
  (name : string) (w w0 : world) :
  get_storage_plugin_info w = (w0, None) ->
  dlite_storage_plugin_get pathshash name w = (w0, GetNull).
Proof.
  intros H. unfold dlite_storage_plugin_get, bind at 1. now rewrite H.
Qed.

(** C1: resolution order of [dlite_storage_plugin_get].  A registered
    name is returned at once, after a single mapping lookup and nothing
    else.  Otherwise the digest of the paths is computed, and the call
    rescans exactly when a digest is obtained and differs from the
    cached hash; it then stores the digest and looks the name up once
    more.  A name still missing ends in [errx]. *)
Theorem dlite_storage_plugin_get_resolution_order
  (pathshash : list string -> option Z) (name : string)
  (w w0 : world) (i : PluginInfo) :
  get_storage_plugin_info w = (w0, Some i) ->
  resolution_steps pathshash name w0 i (dlite_storage_plugin_get pathshash name w).
Proof. apply dlite_storage_plugin_get_steps. Qed.

Lemma dlite_storage_plugin_get_resolution_order_witness :
  get_storage_plugin_info (init_world (demo_env ["/plugins"%string])) =
    (fst (get_storage_plugin_info (init_world (demo_env ["/plugins"%string]))),
     Some (default_info (demo_env ["/plugins"%string]))) /\
  resolution_steps demo_hash "hdf5"
    (fst (get_storage_plugin_info (init_world (demo_env ["/plugins"%string]))))
    (default_info (demo_env ["/plugins"%string]))
    (dlite_storage_plugin_get demo_hash "hdf5" (init_world (demo_env ["/plugins"%string]))).
Proof.
  split; [reflexivity|].
  apply dlite_storage_plugin_get_resolution_order. reflexivity.
Defined.

(** C6: [dlite_storage_plugin_get] yields [NULL] only when the registry
    cannot be created; it never crashes on the path array; it returns a
    plugin only when the name is in the mapping after the hash-gated
    step, and otherwise the process exits through [errx]. *)
Theorem dlite_storage_plugin_get_exits_when_missing
  (pathshash : list string -> option Z) (name : string) (w : world) :
  let (w', r) := dlite_storage_plugin_get pathshash name w in
  match r with
  | GetNull => w_info w = None /\ env_alloc_ok (w_env w) = false
  | GetFound d => exists i, w_info w' = Some i /\ lookup name (pi_plugins i) = Some d
  | GetExit _ => exists i, w_info w' = Some i /\ lookup name (pi_plugins i) = None
  | GetCrash => False
  end.
Proof.
  destruct (get_storage_plugin_info w) as [w0 [i|]] eqn:Hg.
  - pose proof (dlite_storage_plugin_get_steps pathshash name _ _ _ Hg) as S.
    destruct (get_storage_plugin_info_ok _ _ _ Hg) as [Hi _].
    unfold resolution_steps in S.
    destruct (dlite_storage_plugin_get pathshash name w) as [w' r].
    destruct (lookup name (pi_plugins i)) as [d|] eqn:El.
    + destruct S as [-> ->]. exists i. cbn. auto.
    + destruct (pathshash (pi_paths i)) as [h|].
      * destruct (negb (Z.eqb (w_hash w0) h)).
        -- destruct S as (_ & _ & Hw' & Hr).
           destruct (lookup name (pi_plugins (rescanned (env_fs (w_env w0)) i))) eqn:El';
             subst r; eauto.
        -- destruct S as (_ & _ & Hw' & ->). eauto.
      * destruct S as (_ & _ & Hw' & ->). eauto.
  - rewrite (dlite_storage_plugin_get_null pathshash name _ _ Hg).
    destruct (get_storage_plugin_info_null_iff w) as [H _].
    apply H. now rewrite Hg.
Qed.

Lemma msg_paths_count (paths : list string) (n : nat) :
  msg_paths paths n = (msg_lines paths, (n + length paths)%nat).
Proof.
  revert n; induction paths as [|p ps IH]; intros n; cbn.
  - now rewrite Nat.add_0_r.
  - rewrite IH. f_equal. lia.
Qed.

Lemma not_found_msg_shape (name : string) (paths : list string) (br : bool) :
  not_found_msg name paths br =
  (msg_header name ++ msg_lines paths ++
   (if Nat.leb (length paths) 1 then msg_hint br else EmptyString))%string.
Proof. unfold not_found_msg. now rewrite msg_paths_count. Qed.

Lemma dlite_storage_plugin_get_exit_paths
  (pathshash : list string -> option Z) (name : string) (w w' : world) (m : string) :
  dlite_storage_plugin_get pathshash name w = (w', GetExit m) ->
  exists i, w_info w' = Some i /\ w_env w' = w_env w /\
            m = not_found_msg name (pi_paths i) (env_use_build_root (w_env w)).
Proof.
  intros Hr.
  destruct (get_storage_plugin_info w) as [w0 [i|]] eqn:Hg.
  - pose proof (dlite_storage_plugin_get_steps pathshash name _ _ _ Hg) as S.
    destruct (get_storage_plugin_info_ok _ _ _ Hg) as (Hi & _ & He & _).
    unfold resolution_steps in S. rewrite Hr in S. rewrite <- He.
    assert (Hw : w_env w' = w_env w0).
    { pose proof (dlite_storage_plugin_get_env pathshash name _ _ _ Hg) as E.
      now rewrite Hr in E. }
    rewrite Hw.
    destruct (lookup name (pi_plugins i)) as [d|] eqn:El.
    + destruct S as [E _]; discriminate.
    + destruct (pathshash (pi_paths i)) as [h|].
      * destruct (negb (Z.eqb (w_hash w0) h)).
        -- destruct S as (_ & _ & Hw' & Hm).
           destruct (lookup name (pi_plugins (rescanned (env_fs (w_env w0)) i)));
             [discriminate|].
           inversion Hm; subst. eexists; split; [exact Hw'|]. split; reflexivity.
        -- destruct S as (_ & _ & Hw' & Hm). inversion Hm; subst. eauto.
      * destruct S as (_ & _ & Hw' & Hm). inversion Hm; subst. eauto.
  - rewrite (dlite_storage_plugin_get_null pathshash name _ _ Hg) in Hr. discriminate.
Qed.

(** C5 (corrected): when [dlite_storage_plugin_get] exits for a missing
    driver, its message is the header naming the driver in quotes, then
    one line per directory of the search path, in order; the hint naming
    [DLITE_STORAGE_PLUGIN_DIRS] (preceded by [DLITE_ROOT or] outside the
    build tree) follows only when the search path has at most one
    directory. *)
Theorem dlite_storage_plugin_get_failure_message
  (pathshash : list string -> option Z) (name : string) (w w' : world) (m : string) :
  dlite_storage_plugin_get pathshash name w = (w', GetExit m) ->
  exists i, w_info w' = Some i /\
    m = (msg_header name ++ msg_lines (pi_paths i) ++
         (if Nat.leb (length (pi_paths i)) 1
          then msg_hint (env_use_build_root (w_env w)) else EmptyString))%string.
Proof.
  intros Hr.
  destruct (dlite_storage_plugin_get_exit_paths _ _ _ _ _ Hr) as (i & Hi & _ & ->).
  exists i. split; [exact Hi|]. apply not_found_msg_shape.
Qed.

(** Scenario A: no search path at all. *)
Lemma dlite_storage_plugin_get_failure_message_witness :
  dlite_storage_plugin_get demo_hash "hdf5" (init_world (demo_env [])) =
    (fst (dlite_storage_plugin_get demo_hash "hdf5" (init_world (demo_env []))),
     GetExit (not_found_msg "hdf5" [] true)) /\
  exists i, w_info (fst (dlite_storage_plugin_get demo_hash "hdf5" (init_world (demo_env [])))) = Some i /\
    not_found_msg "hdf5" [] true =
      (msg_header "hdf5" ++ msg_lines (pi_paths i) ++
       (if Nat.leb (length (pi_paths i)) 1
        then msg_hint (env_use_build_root (w_env (init_world (demo_env [])))) else EmptyString))%string.
Proof.
  split; [vm_compute; reflexivity|].
  apply (dlite_storage_plugin_get_failure_message demo_hash "hdf5" (init_world (demo_env []))).
  vm_compute. reflexivity.
Defined.

(** C5 fails as stated: with two directories in the search path the
    message carries no hint naming the environment variable. *)
Lemma dlite_storage_plugin_get_no_hint_two_paths :
  match snd (dlite_storage_plugin_get demo_hash "hdf5"
               (init_world (demo_env ["/a"%string; "/b"%string]))) with
  | GetExit m => str_contains "DLITE_STORAGE_PLUGIN_DIRS" m = false /\
                 str_contains "hdf5" m = true /\
                 str_contains "/a" m = true /\ str_contains "/b" m = true
  | _ => False
  end.
Proof. vm_compute. repeat split. Qed.

Lemma clip_index_bound (len : nat) (n : Z) : (clip_index len n <= len)%nat.
Proof. unfold clip_index. destruct (n <? 0); lia. Qed.

Lemma clip_index_neg_one (len : nat) : clip_index len (-1) = len.
Proof. unfold clip_index. cbn. lia. Qed.

Lemma clip_index_above (len : nat) : clip_index len (Z.of_nat len + 100) = len.
Proof.
  unfold clip_index. replace (Z.of_nat len + 100 <? 0) with false by (symmetry; apply Z.ltb_ge; lia).
  lia.
Qed.

Lemma clip_index_below (len : nat) : clip_index len (- (Z.of_nat len + 100)) = 0%nat.
Proof.
  unfold clip_index. replace (- (Z.of_nat len + 100) <? 0) with true by (symmetry; apply Z.ltb_lt; lia).
  lia.
Qed.

Lemma insert_at_end {A} (x : A) (l : list A) : insert_at (length l) x l = l ++ [x].
Proof. unfold insert_at. now rewrite firstn_all, skipn_all. Qed.

Lemma insert_at_nth {A} (k : nat) (x : A) (l : list A) :
  (k <= length l)%nat -> nth_error (insert_at k x l) k = Some x.
Proof.
  intros Hk. unfold insert_at.
  rewrite nth_error_app2; rewrite length_firstn; [|lia].
  replace (k - Init.Nat.min k (length l))%nat with 0%nat by lia. reflexivity.
Qed.

Lemma insert_at_length {A} (k : nat) (x : A) (l : list A) :
  length (insert_at k x l) = S (length l).
Proof.
  unfold insert_at. rewrite length_app. cbn.
  rewrite <- (firstn_skipn k l) at 3. rewrite length_app. lia.
Qed.

Lemma dlite_storage_plugin_path_insert_ok (w : world) (i : PluginInfo)
  (n : Z) (p : string) :
  w_info w = Some i ->
  dlite_storage_plugin_path_insert n p w =
    (set_info w (mkPluginInfo (insert_at (clip_index (length (pi_paths i)) n) p (pi_paths i))
                              (pi_plugins i)),
     Z.of_nat (clip_index (length (pi_paths i)) n)).
Proof.
  intros H. unfold dlite_storage_plugin_path_insert, bind at 1.
  rewrite (get_storage_plugin_info_some _ _ H).
  unfold plugin_path_insert; unfold_monad. now rewrite H.
Qed.

(** C8: clipped negative indexing of [dlite_storage_plugin_path_insert]
    on a search path of length [L]: index [-1] appends at [L], index
    [L+100] is clipped to [L], index [-(L+100)] is clipped to [0]; for
    every index the call returns the position at which [p] now stands. *)
Theorem dlite_storage_plugin_path_insert_clipped (w : world) (i : PluginInfo) (p : string) :
  w_info w = Some i ->
  let L := length (pi_paths i) in
  dlite_storage_plugin_path_insert (-1) p w =
    (set_info w (mkPluginInfo (pi_paths i ++ [p]) (pi_plugins i)), Z.of_nat L) /\
  dlite_storage_plugin_path_insert (Z.of_nat L + 100) p w =
    (set_info w (mkPluginInfo (pi_paths i ++ [p]) (pi_plugins i)), Z.of_nat L) /\
  dlite_storage_plugin_path_insert (- (Z.of_nat L + 100)) p w =
    (set_info w (mkPluginInfo (p :: pi_paths i) (pi_plugins i)), 0) /\
  (forall n, let (w', k) := dlite_storage_plugin_path_insert n p w in
   0 <= k <= Z.of_nat L /\
   exists i', w_info w' = Some i' /\ nth_error (pi_paths i') (Z.to_nat k) = Some p /\
              length (pi_paths i') = S L).
Proof.
  intros H L.
  rewrite !(dlite_storage_plugin_path_insert_ok w i _ p H).
  subst L. rewrite clip_index_neg_one, clip_index_above, clip_index_below, insert_at_end.
  split; [reflexivity|]. split; [reflexivity|]. split; [reflexivity|].
  intros n. rewrite (dlite_storage_plugin_path_insert_ok w i n p H).
  pose proof (clip_index_bound (length (pi_paths i)) n).
  split; [lia|]. eexists; split; [reflexivity|]. cbn.
  rewrite Nat2Z.id. split; [now apply insert_at_nth|apply insert_at_length].
Qed.

Lemma dlite_storage_plugin_path_insert_clipped_witness :
  w_info (set_info (init_world (demo_env [])) (mkPluginInfo ["/a"%string; "/b"%string] [])) =
    Some (mkPluginInfo ["/a"%string; "/b"%string] []) /\
  let w := set_info (init_world (demo_env [])) (mkPluginInfo ["/a"%string; "/b"%string] []) in
  let i := mkPluginInfo ["/a"%string; "/b"%string] [] in
  let L := length (pi_paths i) in
  dlite_storage_plugin_path_insert (-1) "/p" w =
    (set_info w (mkPluginInfo (pi_paths i ++ ["/p"%string]) (pi_plugins i)), Z.of_nat L) /\
  dlite_storage_plugin_path_insert (Z.of_nat L + 100) "/p" w =
    (set_info w (mkPluginInfo (pi_paths i ++ ["/p"%string]) (pi_plugins i)), Z.of_nat L) /\
  dlite_storage_plugin_path_insert (- (Z.of_nat L + 100)) "/p" w =
    (set_info w (mkPluginInfo ("/p"%string :: pi_paths i) (pi_plugins i)), 0) /\
  (forall n, let (w', k) := dlite_storage_plugin_path_insert n "/p" w in
   0 <= k <= Z.of_nat L /\
   exists i', w_info w' = Some i' /\ nth_error (pi_paths i') (Z.to_nat k) = Some "/p"%string /\
              length (pi_paths i') = S L).
Proof.
  split; [reflexivity|].
  apply (dlite_storage_plugin_path_insert_clipped
           (set_info (init_world (demo_env [])) (mkPluginInfo ["/a"%string; "/b"%string] []))
           (mkPluginInfo ["/a"%string; "/b"%string] []) "/p").
  reflexivity.
Defined.

Lemma registry_unavailable (w : world) :
  w_info w = None -> env_alloc_ok (w_env w) = false ->
  get_storage_plugin_info w = (w, None).
Proof.
  destruct w as [e inf h l]; cbn. intros -> He.
  unfold get_storage_plugin_info; unfold_monad; cbn. now rewrite He.
Qed.

(** C10: when the registry cannot be created,
    [dlite_storage_plugin_path_insert], [dlite_storage_plugin_path_append]
    and [dlite_storage_plugin_path_appendn] return [1], not [-1]; and [1]
    is also what a successful insertion at index 1 returns. *)
Theorem dlite_storage_plugin_path_error_collides (w : world) (n : Z) (p : string) (k : nat) :
  w_info w = None -> env_alloc_ok (w_env w) = false ->
  dlite_storage_plugin_path_insert n p w = (w, 1) /\
  dlite_storage_plugin_path_append p w = (w, 1) /\
  dlite_storage_plugin_path_appendn p k w = (w, 1) /\
  exists w1 w1' i1, w_info w1 <> None /\
    dlite_storage_plugin_path_insert 1 p w1 = (w1', 1) /\
    w_info w1' = Some i1 /\ nth_error (pi_paths i1) 1 = Some p.
Proof.
  intros Hn Ha. pose proof (registry_unavailable w Hn Ha) as G.
  split; [unfold dlite_storage_plugin_path_insert, bind at 1; now rewrite G|].
  split; [unfold dlite_storage_plugin_path_append, bind at 1; now rewrite G|].
  split; [unfold dlite_storage_plugin_path_appendn, bind at 1; now rewrite G|].
  set (w1 := set_info w (mkPluginInfo ["/a"%string] [])).
  exists w1.
  eexists. eexists. split; [cbn; discriminate|].
  rewrite (dlite_storage_plugin_path_insert_ok w1 (mkPluginInfo ["/a"%string] []) 1 p eq_refl).
  cbn. split; [reflexivity|split; reflexivity].
Qed.

Lemma dlite_storage_plugin_path_error_collides_witness :
  let w := mkWorld (mkEnv false [] true [] "/usr"%string [] demo_fs) None 0 [] in
  (w_info w = None /\ env_alloc_ok (w_env w) = false) /\
  dlite_storage_plugin_path_insert 5 "/p" w = (w, 1) /\
  dlite_storage_plugin_path_append "/p" w = (w, 1) /\
  dlite_storage_plugin_path_appendn "/p" 3 w = (w, 1) /\
  exists w1 w1' i1, w_info w1 <> None /\
    dlite_storage_plugin_path_insert 1 "/p" w1 = (w1', 1) /\
    w_info w1' = Some i1 /\ nth_error (pi_paths i1) 1 = Some "/p"%string.
Proof.
  split; [split; reflexivity|].
  apply (dlite_storage_plugin_path_error_collides
           (mkWorld (mkEnv false [] true [] "/usr"%string [] demo_fs) None 0 []) 5 "/p" 3);
    reflexivity.
Defined.

Lemma lookup_in (n : string) (ps : list (string * descriptor)) :
  lookup n ps <> None <-> In n (map fst ps).
Proof.
  induction ps as [|[m d] ps IH]; cbn.
  - split; [intros H; now apply H|intros []].
  - destruct (String.eqb m n) eqn:E.
    + apply String.eqb_eq in E. split; [auto|discriminate].
    + apply String.eqb_neq in E. rewrite IH. split; [auto|intros [->|H]; tauto].
Qed.

Lemma register_names (d : descriptor) (ps : list (string * descriptor)) (n : string) :
  In n (map fst (register d ps)) <-> In n (map fst ps) \/ n = d_name d.
Proof.
  unfold register.
  destruct (existsb (fun '(m, _) => String.eqb m (d_name d)) ps) eqn:E.
  - rewrite map_map.
    replace (map (fun x => fst (let '(m, x0) := x in
                if String.eqb m (d_name d) then (m, d) else (m, x0))) ps)
      with (map fst ps)
      by (apply map_ext; intros [m x]; now destruct (String.eqb m (d_name d))).
    split; [auto|]. intros [H| ->]; [exact H|].
    apply existsb_exists in E as [[m x] [Hin Hm]].
    apply String.eqb_eq in Hm; subst m.
    apply (in_map fst) in Hin. exact Hin.
  - rewrite map_app, in_app_iff. cbn. split.
    + intros [H|[H|[]]]; auto.
    + intros [H|H]; auto.
Qed.

Lemma load_files_keeps (fs : list plugin_file) (ps : list (string * descriptor)) (n : string) :
  In n (map fst ps) -> In n (map fst (load_files fs ps)).
Proof.
  revert ps; induction fs as [|f fs IH]; intros ps H; cbn; [exact H|].
  apply IH. destruct (pf_probe f); [apply register_names; auto|exact H].
Qed.

Lemma load_files_adds (fs : list plugin_file) (ps : list (string * descriptor))
  (f : plugin_file) (d : descriptor) :
  In f fs -> pf_probe f = Some d -> In (d_name d) (map fst (load_files fs ps)).
Proof.
  revert ps; induction fs as [|g fs IH]; intros ps Hin Hp; cbn; [destruct Hin|].
  destruct Hin as [->|Hin].
  - apply load_files_keeps. rewrite Hp. apply register_names. auto.
  - apply IH; assumption.
Qed.

Lemma load_dirs_keeps (fsys : string -> list plugin_file) (dirs : list string)
  (ps : list (string * descriptor)) (n : string) :
  In n (map fst ps) -> In n (map fst (load_dirs fsys dirs ps)).
Proof.
  revert ps; induction dirs as [|dir dirs IH]; intros ps H; cbn; [exact H|].
  apply IH, load_files_keeps, H.
Qed.

Lemma load_dirs_adds (fsys : string -> list plugin_file) (dirs : list string)
  (ps : list (string * descriptor)) (dir : string) (f : plugin_file) (d : descriptor) :
  In dir dirs -> In f (fsys dir) -> pf_probe f = Some d ->
  In (d_name d) (map fst (load_dirs fsys dirs ps)).
Proof.
  revert ps; induction dirs as [|x dirs IH]; intros ps Hd Hf Hp; cbn; [destruct Hd|].
  destruct Hd as [->|Hd].
  - apply load_dirs_keeps. eapply load_files_adds; eassumption.
  - eapply IH; eassumption.
Qed.

Lemma load_files_skip (fs : list plugin_file) (ps : list (string * descriptor)) :
  load_files (filter (fun f => match pf_probe f with Some _ => true | None => false end) fs) ps =
  load_files fs ps.
Proof.
  revert ps; induction fs as [|f fs IH]; intros ps; cbn; [reflexivity|].
  destruct (pf_probe f) eqn:E; cbn; rewrite ?E; apply IH.
Qed.

Lemma load_dirs_skip (fsys : string -> list plugin_file) (dirs : list string)
  (ps : list (string * descriptor)) :
  load_dirs (skip_failed fsys) dirs ps = load_dirs fsys dirs ps.
Proof.
  revert ps; induction dirs as [|dir dirs IH]; intros ps; cbn [load_dirs]; [reflexivity|].
  unfold skip_failed at 2. rewrite load_files_skip. apply IH.
Qed.

Lemma plugin_load_all_ok (w : world) (i : PluginInfo) :
  w_info w = Some i ->
  plugin_load_all w =
    (mkWorld (w_env w) (Some (rescanned (env_fs (w_env w)) i)) (w_hash w)
             (w_log w ++ [EvLoadAll]), tt).
Proof.
  destruct w as [e inf h l]; cbn. intros ->.
  unfold plugin_load_all; unfold_monad; cbn. reflexivity.
Qed.

(** C9: [dlite_storage_plugin_load_all] returns non-zero (namely 1)
    exactly when the registry cannot be created.  Otherwise it returns 0
    after a rescan in which files whose probe fails are skipped: the
    result is the one obtained without those files, and every plugin
    probed from a file of a directory of the search path is
    registered. *)
Theorem dlite_storage_plugin_load_all_status (w : world) :
  let (w', rc) := dlite_storage_plugin_load_all w in
  (rc <> 0 <-> w_info w = None /\ env_alloc_ok (w_env w) = false) /\
  (rc = 0 \/ rc = 1) /\
  (rc = 0 -> exists i0 i,
     snd (get_storage_plugin_info w) = Some i0 /\ w_info w' = Some i /\
     i = rescanned (skip_failed (env_fs (w_env w))) i0 /\
     (forall dir f d, In dir (pi_paths i0) -> In f (env_fs (w_env w) dir) ->
        pf_probe f = Some d -> lookup (d_name d) (pi_plugins i) <> None)).
Proof.
  unfold dlite_storage_plugin_load_all, bind at 1.
  destruct (get_storage_plugin_info w) as [w0 [i0|]] eqn:Hg.
  - destruct (get_storage_plugin_info_ok _ _ _ Hg) as (Hi & _ & He & _).
    unfold bind, ret; rewrite (plugin_load_all_ok w0 i0 Hi); cbn.
    split.
    + split; [intros H; now exfalso|].
      intros H. apply get_storage_plugin_info_null_iff in H. rewrite Hg in H. discriminate.
    + split; [auto|]. intros _. exists i0, (rescanned (env_fs (w_env w0)) i0).
      split; [reflexivity|]. split; [reflexivity|]. rewrite He. split.
      * unfold rescanned. now rewrite load_dirs_skip.
      * intros dir f d Hd Hf Hp. apply lookup_in. unfold rescanned; cbn.
        eapply load_dirs_adds; eassumption.
  - cbn. apply get_storage_plugin_info_none in Hg as Hw; subst w0.
    split; [|split; [auto|intros H; discriminate]].
    split; [intros _|intros _; discriminate].
    apply get_storage_plugin_info_null_iff. now rewrite Hg.
Qed.

Lemma rescans_app (l1 l2 : list event) : rescans (l1 ++ l2) = (rescans l1 + rescans l2)%nat.
Proof. unfold rescans. now rewrite filter_app, length_app. Qed.

Lemma filter_absent (n : string) (ps : list (string * descriptor)) :
  lookup n ps = None ->
  filter (fun '(m, _) => negb (String.eqb m n)) ps = ps.
Proof.
  induction ps as [|[m d] ps IH]; cbn; [reflexivity|].
  destruct (String.eqb m n); [discriminate|]. cbn. intros H. now rewrite IH.
Qed.

Lemma filter_unload_step (n : string) (ns : list string) (ps : list (string * descriptor)) :
  filter (fun '(m, _) => negb (existsb (String.eqb m) ns))
    (filter (fun '(m, _) => negb (String.eqb m n)) ps) =
  filter (fun '(m, _) => negb (existsb (String.eqb m) (n :: ns))) ps.
Proof.
  induction ps as [|[m d] ps IH]; cbn; [reflexivity|].
  destruct (String.eqb m n); cbn; [exact IH|].
  destruct (existsb (String.eqb m) ns); cbn; [exact IH|now rewrite IH].
Qed.

Lemma plugin_unload_effect (w : world) (i : PluginInfo) (n : string) :
  w_info w = Some i ->
  fst (plugin_unload n w) =
    mkWorld (w_env w)
      (Some (mkPluginInfo (pi_paths i)
               (filter (fun '(m, _) => negb (String.eqb m n)) (pi_plugins i))))
      (w_hash w) (w_log w ++ [EvUnload n]).
Proof.
  destruct w as [e inf h l]; cbn. intros ->.
  unfold plugin_unload; unfold_monad; cbn.
  destruct (lookup n (pi_plugins i)) eqn:E; cbn; [reflexivity|].
  rewrite (filter_absent n _ E). now destruct i.
Qed.

Lemma unload_names_effect (ns : list string) (w : world) (i : PluginInfo) :
  w_info w = Some i ->
  fst (unload_names ns w) =
    mkWorld (w_env w)
      (Some (mkPluginInfo (pi_paths i)
               (filter (fun '(m, _) => negb (existsb (String.eqb m) ns)) (pi_plugins i))))
      (w_hash w) (w_log w ++ map EvUnload ns).
Proof.
  revert w i; induction ns as [|n ns IH]; intros w i H; cbn.
  - unfold ret. destruct w as [e inf h l]; cbn in *; subst inf.
    rewrite app_nil_r. destruct i as [paths ps]; cbn.
    f_equal. f_equal. f_equal. induction ps as [|[m d] ps IHp]; cbn; congruence.
  - unfold bind at 1. pose proof (plugin_unload_effect w i n H) as E.
    destruct (plugin_unload n w) as [w' z]; cbn in E; subst w'.
    erewrite IH; [|reflexivity]. cbn.
    rewrite filter_unload_step, <- app_assoc. reflexivity.
Qed.

Lemma filter_all_names (ps qs : list (string * descriptor)) :
  (forall m, In m (map fst ps) -> In m (map fst qs)) ->
  filter (fun '(m, _) => negb (existsb (String.eqb m) (map fst qs))) ps = [].
Proof.
  induction ps as [|[m d] ps IH]; intros H; cbn; [reflexivity|].
  replace (existsb (String.eqb m) (map fst qs)) with true.
  - cbn. apply IH. intros x Hx. apply H. cbn. auto.
  - symmetry. apply existsb_exists. exists m. split; [apply H; cbn; auto|].
    apply String.eqb_refl.
Qed.

Lemma unload_all_effect (w : world) (i : PluginInfo) :
  w_info w = Some i ->
  fst (dlite_storage_plugin_unload_all w) =
    mkWorld (w_env w) (Some (mkPluginInfo (pi_paths i) [])) (w_hash w)
      (w_log w ++ map EvUnload (map fst (pi_plugins i))).
Proof.
  intros H. unfold dlite_storage_plugin_unload_all, bind at 1.
  rewrite (get_storage_plugin_info_some w i H).
  unfold plugin_names, bind, get_world, ret. rewrite H.
  rewrite (unload_names_effect _ w i H). rewrite filter_all_names; auto.
Qed.

(** C4 (corrected): [dlite_storage_plugin_unload_all] empties the
    mapping and leaves the search paths and the cached hash as they
    are.  A later [dlite_storage_plugin_get] of any name then goes by the
    hash gate alone: if the cached hash is the digest of the current
    search paths, or the digest cannot be computed, it does not rescan
    and ends in [errx]; if the digest differs from the cached hash (a
    stale hash), it rescans exactly once and stores the digest. *)
Theorem dlite_storage_plugin_unload_all_keeps_hash
  (pathshash : list string -> option Z) (w : world) (i : PluginInfo) :
  w_info w = Some i ->
  let w1 := fst (dlite_storage_plugin_unload_all w) in
  w_info w1 = Some (mkPluginInfo (pi_paths i) []) /\
  w_hash w1 = w_hash w /\ w_env w1 = w_env w /\
  (pathshash (pi_paths i) = Some (w_hash w) ->
   forall name, let (w2, r) := dlite_storage_plugin_get pathshash name w1 in
   rescans (w_log w2) = rescans (w_log w1) /\ exists m, r = GetExit m) /\
  (pathshash (pi_paths i) = None ->
   forall name, let (w2, r) := dlite_storage_plugin_get pathshash name w1 in
   rescans (w_log w2) = rescans (w_log w1) /\ exists m, r = GetExit m) /\
  (forall h, pathshash (pi_paths i) = Some h -> h <> w_hash w ->
   forall name, let w2 := fst (dlite_storage_plugin_get pathshash name w1) in
   rescans (w_log w2) = S (rescans (w_log w1)) /\ w_hash w2 = h).
Proof.
  intros H w1. subst w1. rewrite (unload_all_effect w i H).
  set (w1 := mkWorld (w_env w) (Some (mkPluginInfo (pi_paths i) [])) (w_hash w)
                     (w_log w ++ map EvUnload (map fst (pi_plugins i)))).
  split; [reflexivity|]. split; [reflexivity|]. split; [reflexivity|].
  split; [|split].
  - intros Hh name.
    pose proof (dlite_storage_plugin_get_steps pathshash name w1 w1
                  (mkPluginInfo (pi_paths i) []) (get_storage_plugin_info_some w1 _ eq_refl)) as S.
    destruct (dlite_storage_plugin_get pathshash name w1) as [w2 r].
    unfold resolution_steps in S. cbn [pi_plugins pi_paths lookup] in S.
    replace (w_hash w1) with (w_hash w) in S by reflexivity.
    rewrite Hh, Z.eqb_refl in S. cbn [negb] in S.
    destruct S as (Hl & _ & _ & ->). split; [|eauto].
    rewrite Hl, rescans_app. cbn. lia.
  - intros Hh name.
    pose proof (dlite_storage_plugin_get_steps pathshash name w1 w1
                  (mkPluginInfo (pi_paths i) []) (get_storage_plugin_info_some w1 _ eq_refl)) as S.
    destruct (dlite_storage_plugin_get pathshash name w1) as [w2 r].
    unfold resolution_steps in S. cbn [pi_plugins pi_paths lookup] in S.
    rewrite Hh in S.
    destruct S as (Hl & _ & _ & ->). split; [|eauto].
    rewrite Hl, rescans_app. cbn. lia.
  - intros h Hh Hne name.
    pose proof (dlite_storage_plugin_get_steps pathshash name w1 w1
                  (mkPluginInfo (pi_paths i) []) (get_storage_plugin_info_some w1 _ eq_refl)) as S.
    destruct (dlite_storage_plugin_get pathshash name w1) as [w2 r].
    unfold resolution_steps in S. cbn [pi_plugins pi_paths lookup] in S.
    replace (w_hash w1) with (w_hash w) in S by reflexivity.
    rewrite Hh in S.
    replace (Z.eqb (w_hash w) h) with false in S
      by (symmetry; apply Z.eqb_neq; congruence).
    cbn [negb] in S. destruct S as (Hl & Hh2 & _). cbn [fst].
    split; [|exact Hh2]. rewrite Hl, rescans_app. cbn. lia.
Qed.

Lemma dlite_storage_plugin_unload_all_keeps_hash_witness :
  (let w := fst (dlite_storage_plugin_get demo_hash "hdf5" (init_world (demo_env ["/plugins"%string]))) in
   w_info w = Some (mkPluginInfo ["/plugins"%string] [("hdf5"%string, hdf5_api); ("json"%string, json_api)]) /\
   let w1 := fst (dlite_storage_plugin_unload_all w) in
   w_info w1 = Some (mkPluginInfo ["/plugins"%string] []) /\
   w_hash w1 = w_hash w /\ w_env w1 = w_env w /\
   (demo_hash ["/plugins"%string] = Some (w_hash w) ->
    forall name, let (w2, r) := dlite_storage_plugin_get demo_hash name w1 in
    rescans (w_log w2) = rescans (w_log w1) /\ exists m, r = GetExit m) /\
   (demo_hash ["/plugins"%string] = None ->
    forall name, let (w2, r) := dlite_storage_plugin_get demo_hash name w1 in
    rescans (w_log w2) = rescans (w_log w1) /\ exists m, r = GetExit m) /\
   (forall h, demo_hash ["/plugins"%string] = Some h -> h <> w_hash w ->
    forall name, let w2 := fst (dlite_storage_plugin_get demo_hash name w1) in
    rescans (w_log w2) = S (rescans (w_log w1)) /\ w_hash w2 = h)) /\
  (let w := set_info (init_world (demo_env ["/plugins"%string]))
              (mkPluginInfo ["/plugins"%string] [("hdf5"%string, hdf5_api)]) in
   let w1 := fst (dlite_storage_plugin_unload_all w) in
   (rescans (w_log (fst (dlite_storage_plugin_get demo_hash "hdf5" w1))) = S (rescans (w_log w1)) /\
    w_hash (fst (dlite_storage_plugin_get demo_hash "hdf5" w1)) = 2) /\
   snd (dlite_storage_plugin_get demo_hash "hdf5" w1) = GetFound hdf5_api).
Proof.
  split.
  - split; [vm_compute; reflexivity|].
    apply (dlite_storage_plugin_unload_all_keeps_hash demo_hash
             (fst (dlite_storage_plugin_get demo_hash "hdf5" (init_world (demo_env ["/plugins"%string]))))
             (mkPluginInfo ["/plugins"%string] [("hdf5"%string, hdf5_api); ("json"%string, json_api)])).
    vm_compute; reflexivity.
  - split; [|vm_compute; reflexivity].
    destruct (dlite_storage_plugin_unload_all_keeps_hash demo_hash
                (set_info (init_world (demo_env ["/plugins"%string]))
                   (mkPluginInfo ["/plugins"%string] [("hdf5"%string, hdf5_api)]))
                (mkPluginInfo ["/plugins"%string] [("hdf5"%string, hdf5_api)]) eq_refl)
      as (_ & _ & _ & _ & _ & P).
    apply (P 2); [reflexivity|discriminate].
Defined.

(** C4 fails as stated: after a path change the cached hash is stale;
    a fast-path resolve does not refresh it, so after [unload_all] a
    resolve with the paths unchanged rescans and finds the plugin. *)
Lemma unload_all_then_get_rescans :
  let w1 := fst (dlite_storage_plugin_get demo_hash "hdf5" (init_world (demo_env ["/plugins"%string]))) in
  let w2 := fst (dlite_storage_plugin_path_append "/extra" w1) in
  let w3 := fst (dlite_storage_plugin_get demo_hash "hdf5" w2) in
  let w4 := fst (dlite_storage_plugin_unload_all w3) in
  let (w5, r) := dlite_storage_plugin_get demo_hash "hdf5" w4 in
  option_map pi_plugins (w_info w4) = Some [] /\
  option_map pi_paths (w_info w5) = option_map pi_paths (w_info w4) /\
  rescans (w_log w5) = S (rescans (w_log w4)) /\ r = GetFound hdf5_api.
Proof. vm_compute. repeat split. Qed.

Lemma dlite_storage_plugin_path_append_ok (w : world) (i : PluginInfo) (p : string) :
  w_info w = Some i ->
  dlite_storage_plugin_path_append p w =
    (set_info w (mkPluginInfo (pi_paths i ++ [p]) (pi_plugins i)),
     Z.of_nat (length (pi_paths i))).
Proof.
  intros H. unfold dlite_storage_plugin_path_append, bind at 1.
  rewrite (get_storage_plugin_info_some _ _ H).
  unfold plugin_path_append; unfold_monad. now rewrite H.
Qed.

(** C3 (corrected): the hash gate.  (1) If a resolve of a name absent
    from the mapping returns a plugin, a following resolve of a name
    still absent, with the paths unchanged, does not rescan.  (2) If
    appending [q] gives paths whose digest differs from the cached hash,
    the next resolve of a name absent from the mapping rescans exactly
    once.  (3) A resolve of a registered name returns it without
    rescanning and leaves the cached hash as it is.  (4) Whenever the
    digest of the current paths differs from the cached hash, a resolve
    of a missing name rescans exactly once and stores that digest. *)
Theorem dlite_storage_plugin_get_hash_gated (pathshash : list string -> option Z) :
  (forall (w w0 w1 : world) (i i1 : PluginInfo) (a b : string) (d : descriptor),
   get_storage_plugin_info w = (w0, Some i) -> lookup a (pi_plugins i) = None ->
   dlite_storage_plugin_get pathshash a w = (w1, GetFound d) ->
   w_info w1 = Some i1 -> lookup b (pi_plugins i1) = None ->
   rescans (w_log (fst (dlite_storage_plugin_get pathshash b w1))) = rescans (w_log w1)) /\
  (forall (w : world) (i : PluginInfo) (q b : string) (h' : Z),
   w_info w = Some i ->
   pathshash (pi_paths i ++ [q]) = Some h' -> h' <> w_hash w ->
   lookup b (pi_plugins i) = None ->
   let w1 := fst (dlite_storage_plugin_path_append q w) in
   rescans (w_log (fst (dlite_storage_plugin_get pathshash b w1))) = S (rescans (w_log w1))) /\
  (forall (w : world) (i : PluginInfo) (a : string) (d : descriptor),
   w_info w = Some i -> lookup a (pi_plugins i) = Some d ->
   let (w1, r) := dlite_storage_plugin_get pathshash a w in
   r = GetFound d /\ rescans (w_log w1) = rescans (w_log w) /\ w_hash w1 = w_hash w) /\
  (forall (w : world) (i : PluginInfo) (b : string) (h : Z),
   w_info w = Some i -> pathshash (pi_paths i) = Some h -> h <> w_hash w ->
   lookup b (pi_plugins i) = None ->
   let w1 := fst (dlite_storage_plugin_get pathshash b w) in
   rescans (w_log w1) = S (rescans (w_log w)) /\ w_hash w1 = h).
Proof.
  split; [|split; [|split]].
  - intros w w0 w1 i i1 a b d Hg0 Ha Hg Hi1 Hb.
    pose proof (dlite_storage_plugin_get_steps pathshash a w w0 i Hg0) as S.
    unfold resolution_steps in S. rewrite Hg, Ha in S.
    destruct (pathshash (pi_paths i)) as [h|] eqn:Eh;
      [|destruct S as (_ & _ & _ & E); discriminate].
    destruct (negb (Z.eqb (w_hash w0) h));
      [|destruct S as (_ & _ & _ & E); discriminate].
    destruct S as (_ & Hh1 & Hw1 & _).
    rewrite Hi1 in Hw1. injection Hw1 as E1. subst i1.
    pose proof (dlite_storage_plugin_get_steps pathshash b w1 w1 _
                  (get_storage_plugin_info_some _ _ Hi1)) as S2.
    destruct (dlite_storage_plugin_get pathshash b w1) as [w2 r].
    unfold resolution_steps in S2. rewrite Hb in S2. cbn [pi_paths rescanned] in S2.
    unfold rescanned in S2. cbn [pi_paths] in S2.
    rewrite Eh, Hh1, Z.eqb_refl in S2. cbn [negb] in S2.
    destruct S2 as (Hl & _). cbn [fst]. rewrite Hl, rescans_app. cbn. lia.
  - intros w i q b h' Hi Hh' Hne Hb w1. subst w1.
    rewrite (dlite_storage_plugin_path_append_ok w i q Hi). cbn [fst].
    set (w1 := set_info w (mkPluginInfo (pi_paths i ++ [q]) (pi_plugins i))).
    pose proof (dlite_storage_plugin_get_steps pathshash b w1 w1 _
                  (get_storage_plugin_info_some w1 _ eq_refl)) as S.
    destruct (dlite_storage_plugin_get pathshash b w1) as [w2 r].
    unfold resolution_steps in S. cbn [pi_plugins pi_paths] in S. rewrite Hb, Hh' in S.
    replace (w_hash w1) with (w_hash w) in S by reflexivity.
    replace (Z.eqb (w_hash w) h') with false in S
      by (symmetry; apply Z.eqb_neq; congruence).
    cbn [negb] in S. destruct S as (Hl & _). cbn [fst]. rewrite Hl, rescans_app. cbn. lia.
  - intros w i a d Hi Ha.
    pose proof (dlite_storage_plugin_get_steps pathshash a w w i
                  (get_storage_plugin_info_some w i Hi)) as S.
    destruct (dlite_storage_plugin_get pathshash a w) as [w1 r].
    unfold resolution_steps in S. rewrite Ha in S. destruct S as (-> & ->).
    split; [reflexivity|]. split; [|reflexivity].
    cbn [emit w_log]. rewrite rescans_app. cbn. lia.
  - intros w i b h Hi Hh Hne Hb.
    pose proof (dlite_storage_plugin_get_steps pathshash b w w i
                  (get_storage_plugin_info_some w i Hi)) as S.
    destruct (dlite_storage_plugin_get pathshash b w) as [w1 r].
    unfold resolution_steps in S. rewrite Hb, Hh in S.
    replace (Z.eqb (w_hash w) h) with false in S
      by (symmetry; apply Z.eqb_neq; congruence).
    cbn [negb] in S. destruct S as (Hl & Hh1 & _). cbn [fst].
    split; [|exact Hh1]. rewrite Hl, rescans_app. cbn. lia.
Qed.

Lemma dlite_storage_plugin_get_hash_gated_witness :
  (w_info (fst (dlite_storage_plugin_get demo_hash "hdf5" (init_world (demo_env ["/plugins"%string]))))
     = Some (mkPluginInfo ["/plugins"%string] [("hdf5"%string, hdf5_api); ("json"%string, json_api)]) /\
   rescans (w_log (fst (dlite_storage_plugin_get demo_hash "xml"
      (fst (dlite_storage_plugin_get demo_hash "hdf5" (init_world (demo_env ["/plugins"%string])))))))
   = rescans (w_log (fst (dlite_storage_plugin_get demo_hash "hdf5" (init_world (demo_env ["/plugins"%string])))))) /\
  rescans (w_log (fst (dlite_storage_plugin_get demo_hash "xml"
     (fst (dlite_storage_plugin_path_append "/extra"
        (set_hash (set_info (init_world (demo_env [])) (mkPluginInfo ["/plugins"%string] [])) 2))))))
  = S (rescans (w_log (fst (dlite_storage_plugin_path_append "/extra"
        (set_hash (set_info (init_world (demo_env [])) (mkPluginInfo ["/plugins"%string] [])) 2))))) /\
  (let (w1, r) := dlite_storage_plugin_get demo_hash "hdf5"
       (set_info (init_world (demo_env [])) (mkPluginInfo ["/plugins"%string] [("hdf5"%string, hdf5_api)])) in
   r = GetFound hdf5_api /\
   rescans (w_log w1) = rescans (w_log (set_info (init_world (demo_env [])) (mkPluginInfo ["/plugins"%string] [("hdf5"%string, hdf5_api)]))) /\
   w_hash w1 = w_hash (set_info (init_world (demo_env [])) (mkPluginInfo ["/plugins"%string] [("hdf5"%string, hdf5_api)]))) /\
  (rescans (w_log (fst (dlite_storage_plugin_get demo_hash "xml"
      (set_info (init_world (demo_env [])) (mkPluginInfo ["/plugins"%string; "/extra"%string] [("hdf5"%string, hdf5_api)])))))
   = S (rescans (w_log (set_info (init_world (demo_env [])) (mkPluginInfo ["/plugins"%string; "/extra"%string] [("hdf5"%string, hdf5_api)])))) /\
   w_hash (fst (dlite_storage_plugin_get demo_hash "xml"
      (set_info (init_world (demo_env [])) (mkPluginInfo ["/plugins"%string; "/extra"%string] [("hdf5"%string, hdf5_api)])))) = 3).
Proof.
  destruct (dlite_storage_plugin_get_hash_gated demo_hash) as (P1 & P2 & P3 & P4).
  split; [split; [vm_compute; reflexivity|]|split; [|split]].
  - apply (P1 (init_world (demo_env ["/plugins"%string]))
              (fst (get_storage_plugin_info (init_world (demo_env ["/plugins"%string]))))
              (fst (dlite_storage_plugin_get demo_hash "hdf5" (init_world (demo_env ["/plugins"%string]))))
              (default_info (demo_env ["/plugins"%string]))
              (mkPluginInfo ["/plugins"%string] [("hdf5"%string, hdf5_api); ("json"%string, json_api)])
              "hdf5"%string "xml"%string hdf5_api);
      vm_compute; reflexivity.
  - apply (P2 _ (mkPluginInfo ["/plugins"%string] []) "/extra"%string "xml"%string 3);
      try reflexivity; discriminate.
  - exact (P3 (set_info (init_world (demo_env [])) (mkPluginInfo ["/plugins"%string] [("hdf5"%string, hdf5_api)]))
              (mkPluginInfo ["/plugins"%string] [("hdf5"%string, hdf5_api)]) "hdf5"%string hdf5_api
              eq_refl eq_refl).
  - apply (P4 (set_info (init_world (demo_env [])) (mkPluginInfo ["/plugins"%string; "/extra"%string] [("hdf5"%string, hdf5_api)]))
              (mkPluginInfo ["/plugins"%string; "/extra"%string] [("hdf5"%string, hdf5_api)]) "xml"%string 3);
      try reflexivity; discriminate.
Defined.

(** C3 fails as stated: a fast-path resolve after a path change leaves
    the cached hash stale, and the next resolve of a missing name, with
    the paths unchanged since, rescans. *)
Lemma fast_path_then_missing_rescans :
  let w1 := fst (dlite_storage_plugin_get demo_hash "hdf5" (init_world (demo_env ["/plugins"%string]))) in
  let w2 := fst (dlite_storage_plugin_path_append "/extra" w1) in
  let (w3, r3) := dlite_storage_plugin_get demo_hash "hdf5" w2 in
  let (w4, r4) := dlite_storage_plugin_get demo_hash "xml" w3 in
  r3 = GetFound hdf5_api /\
  option_map (fun i => lookup "xml" (pi_plugins i)) (w_info w3) = Some None /\
  option_map pi_paths (w_info w4) = option_map pi_paths (w_info w3) /\
  rescans (w_log w4) = S (rescans (w_log w3)).
Proof. vm_compute. repeat split. Qed.

(** C2 (code bug): [dlite_storage_plugin_load_all] rescans but never
    stores the digest of the paths in [storage_plugin_path_hash]; from
    the initial process the hash stays zero while the digest is 2. *)
Theorem dlite_storage_plugin_load_all_keeps_hash (w : world) :
  w_hash (fst (dlite_storage_plugin_load_all w)) = w_hash w /\
  let (w', rc) := dlite_storage_plugin_load_all (init_world (demo_env ["/plugins"%string])) in
  rc = 0 /\ rescans (w_log w') = 1%nat /\ w_hash w' = 0 /\
  option_map (fun i => demo_hash (pi_paths i)) (w_info w') = Some (Some 2).
Proof.
  split; [|vm_compute; repeat split].
  unfold dlite_storage_plugin_load_all, bind at 1.
  destruct (get_storage_plugin_info w) as [w0 [i0|]] eqn:Hg.
  - destruct (get_storage_plugin_info_ok _ _ _ Hg) as (Hi & Hh & _).
    unfold bind, ret; rewrite (plugin_load_all_ok w0 i0 Hi); cbn. exact Hh.
  - apply get_storage_plugin_info_none in Hg. now subst.
Qed.

(** ** Further properties of the registry *)

Lemma dlite_storage_plugin_get_registry
  (pathshash : list string -> option Z) (name : string)
  (w w0 : world) (i : PluginInfo) :
  get_storage_plugin_info w = (w0, Some i) ->
  let (w1, r) := dlite_storage_plugin_get pathshash name w in
  exists i1, w_info w1 = Some i1 /\ pi_paths i1 = pi_paths i /\
    (forall n, In n (map fst (pi_plugins i)) -> In n (map fst (pi_plugins i1))) /\
    (forall d, r = GetFound d -> lookup name (pi_plugins i1) = Some d).
Proof.
  intros Hg.
  destruct (get_storage_plugin_info_ok _ _ _ Hg) as [Hi _].
  pose proof (dlite_storage_plugin_get_steps pathshash name _ _ _ Hg) as S.
  destruct (dlite_storage_plugin_get pathshash name w) as [w1 r].
  unfold resolution_steps in S.
  destruct (lookup name (pi_plugins i)) as [d|] eqn:El.
  - destruct S as [-> ->]. exists i. cbn. split; [exact Hi|].
    split; [reflexivity|]. split; [auto|]. intros d' E; inversion E; now subst.
  - destruct (pathshash (pi_paths i)) as [h|].
    + destruct (negb (Z.eqb (w_hash w0) h)).
      * destruct S as (_ & _ & Hw1 & Hr).
        exists (rescanned (env_fs (w_env w0)) i). split; [exact Hw1|].
        split; [reflexivity|]. split.
        -- intros n Hn. unfold rescanned; cbn. now apply load_dirs_keeps.
        -- intros d' ->.
           destruct (lookup name (pi_plugins (rescanned (env_fs (w_env w0)) i)));
             [congruence|discriminate].
      * destruct S as (_ & _ & Hw1 & ->). exists i.
        repeat split; auto. intros d' E; discriminate.
    + destruct S as (_ & _ & Hw1 & ->). exists i.
      repeat split; auto. intros d' E; discriminate.
Qed.

Lemma dlite_storage_plugin_get_fast
  (pathshash : list string -> option Z) (name : string)
  (w : world) (i : PluginInfo) (d : descriptor) :
  w_info w = Some i -> lookup name (pi_plugins i) = Some d ->
  dlite_storage_plugin_get pathshash name w = (emit w (EvGetApi name), GetFound d).
Proof.
  intros Hi Hl.
  pose proof (dlite_storage_plugin_get_steps pathshash name w w i
                (get_storage_plugin_info_some _ _ Hi)) as S.
  unfold resolution_steps in S. rewrite Hl in S.
  destruct (dlite_storage_plugin_get pathshash name w) as [w1 r].
  destruct S as [-> ->]. reflexivity.
Qed.

(** [dlite_storage_plugin_get] never changes the search path and never
    drops a registered plugin: a rescan only adds or replaces entries. *)
Theorem dlite_storage_plugin_get_keeps_paths_and_names
  (pathshash : list string -> option Z) (name : string)
  (w w0 : world) (i : PluginInfo) :
  get_storage_plugin_info w = (w0, Some i) ->
  exists i1, w_info (fst (dlite_storage_plugin_get pathshash name w)) = Some i1 /\
    pi_paths i1 = pi_paths i /\
    (forall n, In n (map fst (pi_plugins i)) -> In n (map fst (pi_plugins i1))).
Proof.
  intros Hg. pose proof (dlite_storage_plugin_get_registry pathshash name _ _ _ Hg) as R.
  destruct (dlite_storage_plugin_get pathshash name w) as [w1 r].
  destruct R as (i1 & H1 & H2 & H3 & _). eauto.
Qed.

Lemma dlite_storage_plugin_get_keeps_paths_and_names_witness :
  get_storage_plugin_info (init_world (demo_env ["/plugins"%string])) =
    (fst (get_storage_plugin_info (init_world (demo_env ["/plugins"%string]))),
     Some (default_info (demo_env ["/plugins"%string]))) /\
  exists i1, w_info (fst (dlite_storage_plugin_get demo_hash "xml"
                           (init_world (demo_env ["/plugins"%string])))) = Some i1 /\
    pi_paths i1 = pi_paths (default_info (demo_env ["/plugins"%string])) /\
    (forall n, In n (map fst (pi_plugins (default_info (demo_env ["/plugins"%string])))) ->
               In n (map fst (pi_plugins i1))).
Proof.
  split; [reflexivity|].
  apply (dlite_storage_plugin_get_keeps_paths_and_names demo_hash "xml"
           (init_world (demo_env ["/plugins"%string]))
           (fst (get_storage_plugin_info (init_world (demo_env ["/plugins"%string]))))).
  reflexivity.
Defined.

(** Resolving a name a second time, once it has been found, is a pure
    fast-path hit: the same descriptor, one mapping lookup, no digest and
    no rescan. *)
Theorem dlite_storage_plugin_get_repeat
  (pathshash : list string -> option Z) (name : string)
  (w w1 : world) (d : descriptor) :
  dlite_storage_plugin_get pathshash name w = (w1, GetFound d) ->
  dlite_storage_plugin_get pathshash name w1 = (emit w1 (EvGetApi name), GetFound d).
Proof.
  intros Hr.
  destruct (get_storage_plugin_info w) as [w0 [i|]] eqn:Hg.
  - pose proof (dlite_storage_plugin_get_registry pathshash name _ _ _ Hg) as R.
    rewrite Hr in R. destruct R as (i1 & H1 & _ & _ & H4).
    apply (dlite_storage_plugin_get_fast pathshash name w1 i1 d H1), H4, eq_refl.
  - rewrite (dlite_storage_plugin_get_null pathshash name _ _ Hg) in Hr. discriminate.
Qed.

Lemma dlite_storage_plugin_get_repeat_witness :
  dlite_storage_plugin_get demo_hash "json" (init_world (demo_env ["/plugins"%string])) =
    (fst (dlite_storage_plugin_get demo_hash "json" (init_world (demo_env ["/plugins"%string]))),
     GetFound json_api) /\
  dlite_storage_plugin_get demo_hash "json"
    (fst (dlite_storage_plugin_get demo_hash "json" (init_world (demo_env ["/plugins"%string])))) =
    (emit (fst (dlite_storage_plugin_get demo_hash "json" (init_world (demo_env ["/plugins"%string]))))
          (EvGetApi "json"), GetFound json_api).
Proof.
  split; [vm_compute; reflexivity|].
  apply (dlite_storage_plugin_get_repeat demo_hash "json"
           (init_world (demo_env ["/plugins"%string]))).
  vm_compute. reflexivity.
Defined.

Lemma filter_names (name : string) (ps : list (string * descriptor)) (n : string) :
  In n (map fst (filter (fun '(m, _) => negb (String.eqb m name)) ps)) <->
  In n (map fst ps) /\ n <> name.
Proof.
  induction ps as [|[m d] ps IH]; cbn; [tauto|].
  destruct (String.eqb m name) eqn:E; cbn.
  - apply String.eqb_eq in E; subst m. rewrite IH. split.
    + intros [H1 H2]; auto.
    + intros [[<-|H1] H2]; [congruence|auto].
  - apply String.eqb_neq in E. rewrite IH. split.
    + intros [<-|[H1 H2]]; auto.
    + intros [[<-|H1] H2]; auto.
Qed.

Lemma lookup_filter_other (name n : string) (ps : list (string * descriptor)) :
  n <> name ->
  lookup n (filter (fun '(m, _) => negb (String.eqb m name)) ps) = lookup n ps.
Proof.
  intros Hne. induction ps as [|[m d] ps IH]; cbn; [reflexivity|].
  destruct (String.eqb m name) eqn:E; cbn.
  - apply String.eqb_eq in E; subst m.
    replace (String.eqb name n) with false by (symmetry; apply String.eqb_neq; auto).
    exact IH.
  - now rewrite IH.
Qed.

(** [dlite_storage_plugin_unload] on an existing registry returns 0 when
    the name was registered and non-zero otherwise; it removes that name
    only, every other entry keeps its descriptor, and the search path and
    the cached hash are untouched. *)
Theorem dlite_storage_plugin_unload_effect (name : string) (w : world) (i : PluginInfo) :
  w_info w = Some i ->
  let (w1, rc) := dlite_storage_plugin_unload name w in
  (rc = 0 <-> lookup name (pi_plugins i) <> None) /\ (rc = 0 \/ rc = 1) /\
  w_hash w1 = w_hash w /\
  exists i1, w_info w1 = Some i1 /\ pi_paths i1 = pi_paths i /\
    lookup name (pi_plugins i1) = None /\
    (forall n, n <> name -> lookup n (pi_plugins i1) = lookup n (pi_plugins i)).
Proof.
  intros H. unfold dlite_storage_plugin_unload, bind at 1.
  rewrite (get_storage_plugin_info_some _ _ H).
  destruct w as [e inf h l]; cbn in H; subst inf.
  unfold plugin_unload; unfold_monad; cbn.
  destruct (lookup name (pi_plugins i)) as [d|] eqn:El; cbn.
  - split; [split; [intros _; discriminate|auto]|]. split; [auto|]. split; [reflexivity|].
    eexists; split; [reflexivity|]. cbn. split; [reflexivity|]. split.
    + destruct (lookup name (filter (fun '(m, _) => negb (String.eqb m name))
                                    (pi_plugins i))) eqn:E2; [|reflexivity].
      exfalso. assert (In name (map fst (filter (fun '(m, _) => negb (String.eqb m name))
                                           (pi_plugins i)))) as Hin
        by (apply lookup_in; congruence).
      apply filter_names in Hin. tauto.
    + intros n Hn. now apply lookup_filter_other.
  - split; [split; [discriminate|tauto]|]. split; [auto|]. split; [reflexivity|].
    exists i. repeat split; auto.
Qed.

Lemma dlite_storage_plugin_unload_effect_witness :
  w_info (fst (dlite_storage_plugin_get demo_hash "hdf5" (init_world (demo_env ["/plugins"%string]))))
    = Some (mkPluginInfo ["/plugins"%string] [("hdf5"%string, hdf5_api); ("json"%string, json_api)]) /\
  let (w1, rc) := dlite_storage_plugin_unload "hdf5"
      (fst (dlite_storage_plugin_get demo_hash "hdf5" (init_world (demo_env ["/plugins"%string])))) in
  (rc = 0 <-> lookup "hdf5" [("hdf5"%string, hdf5_api); ("json"%string, json_api)] <> None) /\
  (rc = 0 \/ rc = 1) /\
  w_hash w1 = w_hash (fst (dlite_storage_plugin_get demo_hash "hdf5" (init_world (demo_env ["/plugins"%string])))) /\
  exists i1, w_info w1 = Some i1 /\ pi_paths i1 = ["/plugins"%string] /\
    lookup "hdf5" (pi_plugins i1) = None /\
    (forall n, n <> "hdf5"%string ->
       lookup n (pi_plugins i1) = lookup n [("hdf5"%string, hdf5_api); ("json"%string, json_api)]).
Proof.
  split; [vm_compute; reflexivity|].
  exact (dlite_storage_plugin_unload_effect "hdf5"
           (fst (dlite_storage_plugin_get demo_hash "hdf5" (init_world (demo_env ["/plugins"%string]))))
           (mkPluginInfo ["/plugins"%string] [("hdf5"%string, hdf5_api); ("json"%string, json_api)])
           eq_refl).
Defined.

(** Unloading a plugin and resolving it again while the cached hash is
    the digest of the current search path finds nothing and rescans
    nothing: the process exits. *)
Theorem dlite_storage_plugin_unload_then_get
  (pathshash : list string -> option Z) (name : string) (w : world) (i : PluginInfo) :
  w_info w = Some i -> pathshash (pi_paths i) = Some (w_hash w) ->
  let w1 := fst (dlite_storage_plugin_unload name w) in
  let (w2, r) := dlite_storage_plugin_get pathshash name w1 in
  rescans (w_log w2) = rescans (w_log w1) /\ exists m, r = GetExit m.
Proof.
  intros H Hh w1.
  assert (E : exists i1, w_info w1 = Some i1 /\ pi_paths i1 = pi_paths i /\
                         lookup name (pi_plugins i1) = None /\ w_hash w1 = w_hash w).
  { pose proof (dlite_storage_plugin_unload_effect name w i H) as U. subst w1.
    destruct (dlite_storage_plugin_unload name w) as [w1 rc].
    destruct U as (_ & _ & Hh1 & i1 & Hi1 & Hp & Hl & _). cbn. eauto. }
  destruct E as (i1 & Hi1 & Hp & Hl & Hh1). clearbody w1.
  pose proof (dlite_storage_plugin_get_steps pathshash name w1 w1 i1
                (get_storage_plugin_info_some _ _ Hi1)) as S.
  destruct (dlite_storage_plugin_get pathshash name w1) as [w2 r].
  unfold resolution_steps in S. rewrite Hl, Hp, Hh, <- Hh1, Z.eqb_refl in S.
  cbn [negb] in S. destruct S as (Hlog & _ & _ & ->). split; [|eauto].
  rewrite Hlog, rescans_app. cbn. lia.
Qed.

Lemma dlite_storage_plugin_unload_then_get_witness :
  let w := fst (dlite_storage_plugin_get demo_hash "hdf5" (init_world (demo_env ["/plugins"%string]))) in
  (w_info w = Some (mkPluginInfo ["/plugins"%string] [("hdf5"%string, hdf5_api); ("json"%string, json_api)]) /\
   demo_hash ["/plugins"%string] = Some (w_hash w)) /\
  let w1 := fst (dlite_storage_plugin_unload "hdf5" w) in
  let (w2, r) := dlite_storage_plugin_get demo_hash "hdf5" w1 in
  rescans (w_log w2) = rescans (w_log w1) /\ exists m, r = GetExit m.
Proof.
  split; [split; vm_compute; reflexivity|].
  apply (dlite_storage_plugin_unload_then_get demo_hash "hdf5"
           (fst (dlite_storage_plugin_get demo_hash "hdf5" (init_world (demo_env ["/plugins"%string]))))
           (mkPluginInfo ["/plugins"%string] [("hdf5"%string, hdf5_api); ("json"%string, json_api)]));
    vm_compute; reflexivity.
Defined.







(** After a successful [dlite_storage_plugin_load_all], every plugin
    probed from a file in a directory of the search path is resolved by
    [dlite_storage_plugin_get] on the fast path: one mapping lookup, no
    digest, no rescan. *)
Theorem dlite_storage_plugin_load_all_then_get
  (pathshash : list string -> option Z) (w w1 : world) :
  dlite_storage_plugin_load_all w = (w1, 0) ->
  exists i1, w_info w1 = Some i1 /\
    forall dir f d, In dir (pi_paths i1) -> In f (env_fs (w_env w1) dir) ->
      pf_probe f = Some d ->
      exists d', dlite_storage_plugin_get pathshash (d_name d) w1 =
                   (emit w1 (EvGetApi (d_name d)), GetFound d').
Proof.
  unfold dlite_storage_plugin_load_all, bind at 1.
  destruct (get_storage_plugin_info w) as [w0 [i0|]] eqn:Hg.
  - destruct (get_storage_plugin_info_ok _ _ _ Hg) as (Hi & _).
    unfold bind, ret; rewrite (plugin_load_all_ok w0 i0 Hi); cbn.
    intros E; inversion E; subst w1; clear E.
    eexists; split; [reflexivity|].
    intros dir f d Hd Hf Hp. cbn in Hd, Hf.
    assert (Hin : In (d_name d) (map fst (pi_plugins (rescanned (env_fs (w_env w0)) i0))))
      by (unfold rescanned; cbn; eapply load_dirs_adds; eassumption).
    apply lookup_in in Hin.
    destruct (lookup (d_name d) (pi_plugins (rescanned (env_fs (w_env w0)) i0))) as [d'|] eqn:El;
      [|congruence].
    exists d'. now apply dlite_storage_plugin_get_fast with (i := rescanned (env_fs (w_env w0)) i0).
  - cbn. intros E; discriminate.
Qed.

Lemma dlite_storage_plugin_load_all_then_get_witness :
  dlite_storage_plugin_load_all (init_world (demo_env ["/plugins"%string])) =
    (fst (dlite_storage_plugin_load_all (init_world (demo_env ["/plugins"%string]))), 0) /\
  exists i1, w_info (fst (dlite_storage_plugin_load_all (init_world (demo_env ["/plugins"%string])))) = Some i1 /\
    forall dir f d, In dir (pi_paths i1) ->
      In f (env_fs (w_env (fst (dlite_storage_plugin_load_all (init_world (demo_env ["/plugins"%string]))))) dir) ->
      pf_probe f = Some d ->
      exists d', dlite_storage_plugin_get demo_hash (d_name d)
                   (fst (dlite_storage_plugin_load_all (init_world (demo_env ["/plugins"%string])))) =
                 (emit (fst (dlite_storage_plugin_load_all (init_world (demo_env ["/plugins"%string]))))
                       (EvGetApi (d_name d)), GetFound d').
Proof.
  split; [vm_compute; reflexivity|].
  apply (dlite_storage_plugin_load_all_then_get demo_hash
           (init_world (demo_env ["/plugins"%string]))).
  vm_compute. reflexivity.
Defined.

(** [storage_plugin_info_free] drops the registry but keeps the cached
    hash.  A later [dlite_storage_plugin_get] re-creates the registry and
    registers the teardown hook a second time.  If the hash still equals
    the digest of the default search path, the call then finds nothing,
    rescans nothing and exits. *)
Theorem storage_plugin_info_free_keeps_hash
  (pathshash : list string -> option Z) (w : world) (name : string) :
  env_alloc_ok (w_env w) = true ->
  pathshash (pi_paths (default_info (w_env w))) = Some (w_hash w) ->
  let w1 := fst (storage_plugin_info_free w) in
  w_info w1 = None /\ w_hash w1 = w_hash w /\
  let (w2, r) := dlite_storage_plugin_get pathshash name w1 in
  (exists m, r = GetExit m) /\ rescans (w_log w2) = rescans (w_log w1) /\
  atexits (w_log w2) = S (atexits (w_log w1)).
Proof.
  intros Ha Hh w1.
  assert (Hg : get_storage_plugin_info w1 =
                 (mkWorld (w_env w) (Some (default_info (w_env w))) (w_hash w)
                          (w_log w ++ [EvAtexit; EvAddDllPath]),
                  Some (default_info (w_env w)))).
  { subst w1. cbn. unfold get_storage_plugin_info; unfold_monad; cbn.
    rewrite Ha. cbn. rewrite <- app_assoc. reflexivity. }
  split; [reflexivity|]. split; [reflexivity|].
  pose proof (dlite_storage_plugin_get_steps pathshash name _ _ _ Hg) as S.
  destruct (dlite_storage_plugin_get pathshash name w1) as [w2 r].
  unfold resolution_steps in S.
  replace (pi_plugins (default_info (w_env w))) with (@nil (string * descriptor)) in S
    by (unfold default_info; now destruct (env_use_build_root (w_env w))).
  cbn [lookup w_hash] in S. rewrite Hh, Z.eqb_refl in S. cbn [negb w_log] in S.
  destruct S as (Hl & _ & _ & ->). split; [eauto|].
  assert (Hw1 : w_log w1 = w_log w) by reflexivity.
  rewrite Hl, Hw1, <- app_assoc. unfold rescans, atexits.
  rewrite !filter_app, !length_app. cbn. lia.
Qed.

Lemma storage_plugin_info_free_keeps_hash_witness :
  let w := fst (dlite_storage_plugin_get demo_hash "hdf5" (init_world (demo_env ["/plugins"%string]))) in
  (env_alloc_ok (w_env w) = true /\
   demo_hash (pi_paths (default_info (w_env w))) = Some (w_hash w)) /\
  let w1 := fst (storage_plugin_info_free w) in
  w_info w1 = None /\ w_hash w1 = w_hash w /\
  let (w2, r) := dlite_storage_plugin_get demo_hash "hdf5" w1 in
  (exists m, r = GetExit m) /\ rescans (w_log w2) = rescans (w_log w1) /\
  atexits (w_log w2) = S (atexits (w_log w1)).
Proof.
  split; [split; vm_compute; reflexivity|].
  apply (storage_plugin_info_free_keeps_hash demo_hash
           (fst (dlite_storage_plugin_get demo_hash "hdf5" (init_world (demo_env ["/plugins"%string]))))
           "hdf5"); vm_compute; reflexivity.
Defined.
